(** * text_highlighter: the Python wrapper of the Streamlit component

    A shallow embedding of [text_highlighter/__init__.py].  The module
    declares one Streamlit component and wraps it in the public function
    [text_highlighter]: the wrapper normalises [labels], picks the default
    selected label, resolves the colour list and calls through to the
    component, returning the component's value.

    Python data is modelled as follows.
    - [str] is [string]; [List[str]] is [list string].
    - An annotation, [Dict[str, Any]], is a finite map from strings to
      values (ints, strings, booleans, [None]).
    - The [annotations] list is an object: the wrapper receives a
      reference to it, hands the same reference to the component twice
      ([annotations=] and [default=]) and may return it.  List objects
      live in a heap and are named by locations.
    - A raised exception ends the call; the state reached so far stays. *)

From Stdlib Require Import ZArith.
From stdpp Require Import base list strings gmap.

Open Scope string_scope.
Open Scope list_scope.

(** ** Values, annotations, objects *)

Inductive value :=
  | VNone
  | VBool (b : bool)
  | VInt (n : Z)
  | VStr (s : string).

#[global] Instance value_eq_dec : EqDecision value.
Proof. solve_decision. Defined.

Abbreviation annotation := (gmap string value).

(** A location names a list object holding annotations. *)
Abbreviation loc := nat.
Abbreviation heap_t := (list (list annotation)).

(** ** Exceptions

    [IndexError] and [AssertionError] are the two exceptions the module can
    raise.  [ConfigurationError] and [ValidationError] are the names the
    design document uses; no statement of the module raises them. *)

Inductive exn :=
  | IndexError
  | AssertionError (msg : string)
  | ConfigurationError
  | ValidationError.

#[global] Instance exn_eq_dec : EqDecision exn.
Proof. solve_decision. Defined.

Abbreviation result A := (sum exn A).

(** ** The boundary with the frontend

    [frontend_args] is the "args" dictionary the frontend receives: the
    keyword arguments of the component call, serialised.  [key] and [default]
    are special arguments of the component function and are not part of it. *)

Record frontend_args := {
  f_text : string;
  f_annotations : list annotation;
  f_colors : list string;
  f_labels : list string;
  f_selected_label : string;
  f_show_label_selector : bool
}.

(** The frontend (the rendering surface and the user in front of it): for a
    render with a given key and arguments it has either set no component
    value yet ([None]) or set one ([Some v], the argument of
    [Streamlit.setComponentValue]). *)
Definition frontend := option string -> frontend_args -> option (list annotation).

(** The state a call runs in: the heap of list objects and the log of the
    renders issued so far, oldest first. *)
Record world := {
  heap : heap_t;
  renders : list (option string * frontend_args)
}.

(** The shared default of the parameter [annotations]: the list object the
    expression [[]] of the signature creates once, when [def] is executed. *)
Definition default_annotations : loc := 0.

Definition init_world : world := {| heap := [ [] ]; renders := [] |}.

(** ** The monad of calls: state and exceptions *)

Definition M (A : Type) : Type := world -> result A * world.

Definition ret {A} (a : A) : M A := fun w => (inr a, w).

Definition raise {A} (e : exn) : M A := fun w => (inl e, w).

Definition bind {A B} (c : M A) (k : A -> M B) : M B :=
  fun w => match c w with
           | (inl e, w') => (inl e, w')
           | (inr a, w') => k a w'
           end.

Notation "x <- c ;; k" := (bind c (fun x => k))
  (at level 100, c at next level, right associativity).
Notation "c ;;; k" := (bind c (fun _ => k))
  (at level 100, right associativity).

(** ** Python primitives *)

(** [l[i]] for a non-negative index. *)
Definition getitem {A} (l : list A) (i : nat) : M A :=
  match l !! i with
  | Some x => ret x
  | None => raise IndexError
  end.

(** [assert b, msg] *)
Definition assert (b : bool) (msg : string) : M unit :=
  if b then ret tt else raise (AssertionError msg).

(** [[f(i) for i in xs]] where evaluating [f(i)] may raise. *)
Fixpoint comprehension {A B} (f : A -> M B) (xs : list A) : M (list B) :=
  match xs with
  | [] => ret []
  | x :: xs' => y <- f x ;; ys <- comprehension f xs' ;; ret (y :: ys)
  end.

(** [range(n)] *)
Definition range (n : nat) : list nat := seq 0 n.

(** ** The component function

    [_component_func] is what [components.declare_component] returns; both
    branches of the [_RELEASE] test declare the same component and differ
    only in where its frontend is served from.  Its keyword arguments, as
    the wrapper passes them: *)

Record component_args := {
  c_text : string;
  c_annotations : loc;
  c_colors : list string;
  c_labels : list string;
  c_key : option string;
  c_default : loc;
  c_selected_label : string;
  c_show_label_selector : bool
}.

(** What the frontend is sent: the arguments with the list object read. *)
Definition serialise (h : heap_t) (c : component_args) : frontend_args :=
  {| f_text := c_text c;
     f_annotations := h !!! c_annotations c;
     f_colors := c_colors c;
     f_labels := c_labels c;
     f_selected_label := c_selected_label c;
     f_show_label_selector := c_show_label_selector c |}.

(** A call of the component function renders: the arguments are sent to the
    frontend.  "default" is the initial return value of the component before
    the user has interacted with it: the object passed as [default] itself.
    A value set by the frontend arrives as a new list object. *)
Definition _component_func (fe : frontend) (c : component_args) : M loc :=
  fun w =>
    let sent := serialise (heap w) c in
    let log := renders w ++ [(c_key c, sent)] in
    match fe (c_key c) sent with
    | None => (inr (c_default c), {| heap := heap w; renders := log |})
    | Some v => (inr (length (heap w)), {| heap := heap w ++ [v]; renders := log |})
    end.

(** ** The wrapper *)

(** [[labels] if isinstance(labels, str) else labels] *)
Definition labels_list (labels : string + list string) : list string :=
  match labels with
  | inl s => [s]
  | inr l => l
  end.

Definition all_colors : list string :=
  [ "red"; "green"; "blue"; "yellow"; "orange"; "purple"; "pink"; "cyan"; "gray" ].

Definition text_highlighter (fe : frontend)
    (text : string)
    (selected_label : option string)
    (annotations : loc)
    (labels : string + list string)
    (colors : option (list string))
    (key : option string)
    (show_label_selector : bool) : M loc :=
  let labels := labels_list labels in
  selected_label <-
    match selected_label with
    | None => getitem labels 0
    | Some s => ret s
    end ;;
  colors <-
    match colors with
    | Some colors =>
        assert (Nat.eqb (length colors) (length labels))
               "Colors and labels must be the same length" ;;;
        ret colors
    | None =>
        comprehension
          (fun i => getitem all_colors (i mod length all_colors))
          (range (length labels))
    end ;;
  component_value <-
    _component_func fe
      {| c_text := text;
         c_annotations := annotations;
         c_colors := colors;
         c_labels := labels;
         c_key := key;
         c_default := annotations;
         c_selected_label := selected_label;
         c_show_label_selector := show_label_selector |} ;;
  ret component_value.

(** The keyword arguments of a call; an omitted argument takes the default
    of the signature.  For [selected_label], [colors] and [key] the default
    is [None], so omitting them and passing [None] are the same call. *)
Record kwargs := {
  k_text : option string;
  k_selected_label : option string;
  k_annotations : option loc;
  k_labels : option (string + list string);
  k_colors : option (list string);
  k_key : option string;
  k_show_label_selector : option bool
}.

Definition call (fe : frontend) (k : kwargs) : M loc :=
  text_highlighter fe
    (default "Hello world!" (k_text k))
    (k_selected_label k)
    (default default_annotations (k_annotations k))
    (default (inr ["PERSON"; "ORG"]) (k_labels k))
    (k_colors k)
    (k_key k)
    (default true (k_show_label_selector k)).

(** A frontend on which the user has not interacted yet: no render has a
    component value. *)
Definition no_interaction : frontend := fun _ _ => None.

(** A frontend whose user has produced the annotation list [v]. *)
Definition edited (v : list annotation) : frontend := fun _ _ => Some v.

(** The renders a call has issued: what its final state logs beyond the
    state [w] it started in. *)
Definition new_renders {A} (w : world) (r : result A * world)
  : list (option string * frontend_args) :=
  drop (length (renders w)) (renders r.2).

(** A host application that calls the wrapper several times, each call with
    its own frontend behaviour, ignoring values and exceptions. *)
Fixpoint run_calls (cs : list (frontend * kwargs)) (w : world) : world :=
  match cs with
  | [] => w
  | (fe, k) :: cs' => run_calls cs' (call fe k w).2
  end.

(** ** The conditions of the design document

    The document asks for three checks on every annotation and for a colour
    that agrees with the palette.  They are written out here from its words,
    to be compared with what the wrapper does. *)

(** [tag] is a member of the label set. *)
Definition tag_known (labels : list string) (a : annotation) : bool :=
  match a !! "tag" with
  | Some (VStr t) => bool_decide (t ∈ labels)
  | _ => false
  end.

(** [0 <= start < end <= len(text)] *)
Definition span_in_bounds (text : string) (a : annotation) : bool :=
  match a !! "start", a !! "end" with
  | Some (VInt s), Some (VInt e) =>
      (0 <=? s)%Z && (s <? e)%Z && (e <=? Z.of_nat (String.length text))%Z
  | _, _ => false
  end.

(** [source[start:end]] for offsets that are not negative. *)
Definition slice (source : string) (s e : Z) : string :=
  String.substring (Z.to_nat s) (Z.to_nat e - Z.to_nat s) source.

(** The [text] field, if present, equals [source[start:end]]. *)
Definition text_matches (text : string) (a : annotation) : bool :=
  match a !! "text" with
  | None => true
  | Some (VStr t) =>
      match a !! "start", a !! "end" with
      | Some (VInt s), Some (VInt e) => bool_decide (t = slice text s e)
      | _, _ => false
      end
  | Some _ => false
  end.

Definition valid_annotation (labels : list string) (text : string)
    (a : annotation) : bool :=
  tag_known labels a && span_in_bounds text a && text_matches text a.

(** The palette as a mapping: the colour at the position of the label. *)
Fixpoint palette (labels colors : list string) (tag : string) : option string :=
  match labels, colors with
  | l :: labels', c :: colors' =>
      if decide (l = tag) then Some c else palette labels' colors' tag
  | _, _ => None
  end.

(** The [color] of an annotation is the colour of its [tag]. *)
Definition color_consistent (labels colors : list string) (a : annotation) : bool :=
  match a !! "tag", a !! "color" with
  | Some (VStr t), Some (VStr c) => bool_decide (palette labels colors t = Some c)
  | _, _ => false
  end.

(** ** Sample data: the annotations of the document's examples *)

Definition ann_out_of_range : annotation :=
  {[ "start" := VInt 0; "end" := VInt 1000; "tag" := VStr "ORG" ]}.

Definition ann_unknown_tag : annotation :=
  {[ "start" := VInt 0; "end" := VInt 2; "tag" := VStr "DATE" ]}.

Definition ann_hello : annotation :=
  {[ "start" := VInt 0; "end" := VInt 5; "text" := VStr "Hello";
     "tag" := VStr "ORG"; "color" := VStr "red" ]}.

(** A state of the host: the shared default list and one list it built. *)
Definition world_with (l : list annotation) : world :=
  {| heap := [ []; l ]; renders := [] |}.

(** ** The wrapper in closed form

    Names for what lines 77-93 compute, used to state the properties. *)

(** The colour the wrapper gives to position [i] when [colors] is [None]. *)
Definition builtin (i : nat) : string := all_colors !!! (i mod 9).

(** The selected label after lines 77-78, when they do not raise. *)
Definition selected_of (selected_label : option string) (labels : list string)
  : option string :=
  match selected_label with
  | Some s => Some s
  | None => labels !! 0
  end.

(** The colour list after lines 79-93, when they do not raise. *)
Definition colors_of (colors : option (list string)) (labels : list string)
  : option (list string) :=
  match colors with
  | Some cs => if Nat.eqb (length cs) (length labels) then Some cs else None
  | None => Some (builtin <$> seq 0 (length labels))
  end.

Definition length_message : string := "Colors and labels must be the same length".

(** ** The statements of the design document that the wrapper does not meet *)

(** The statement of the design document for an empty label set. *)
Definition empty_labels_raise_ConfigurationError
    fe text ann colors key show w : Prop :=
  text_highlighter fe text None ann (inr []) colors key show w
  = (inl ConfigurationError, w).

(** The statement of the design document for a colour list of the wrong
    length. *)
Definition mismatch_raises_ConfigurationError
    fe text sel ann labels (cs : list string) key show w : Prop :=
  length cs <> length (labels_list labels) ->
  (text_highlighter fe text sel ann labels (Some cs) key show w).1
  = inl ConfigurationError.

(** The statement of the design document: an annotation that fails one of
    the three checks makes the call fail with [ValidationError]. *)
Definition rejects_invalid_annotations
    fe text sel ann labels colors key show w : Prop :=
  forall a,
    a ∈ heap w !!! ann ->
    valid_annotation (labels_list labels) text a = false ->
    (text_highlighter fe text sel ann labels colors key show w).1
    = inl ValidationError.

(** The statement of the design document: an annotation whose [color] is
    not the palette's colour for its [tag] makes the call fail with
    [ValidationError]. *)
Definition rejects_stale_color
    fe text sel ann labels colors key show w : Prop :=
  forall cs a,
    colors_of colors (labels_list labels) = Some cs ->
    a ∈ heap w !!! ann ->
    color_consistent (labels_list labels) cs a = false ->
    (text_highlighter fe text sel ann labels colors key show w).1
    = inl ValidationError.

(** ** More sample data *)

Definition ten_labels : list string :=
  [ "A"; "B"; "C"; "D"; "E"; "F"; "G"; "H"; "I"; "J" ].

(** A value with a repeated annotation, out of order and out of range. *)
Definition unsorted_value : list annotation :=
  [ ann_unknown_tag; ann_out_of_range; ann_unknown_tag ].

(** A host that calls three times: with its own list and an edit from the
    frontend, with a colour list of the wrong length, and with nothing but
    a key. *)
Definition three_calls : list (frontend * kwargs) :=
  [ (edited unsorted_value,
     {| k_text := Some "hi"; k_selected_label := None; k_annotations := Some 1;
        k_labels := Some (inl "ORG"); k_colors := None; k_key := Some "a";
        k_show_label_selector := None |});
    (no_interaction,
     {| k_text := None; k_selected_label := None; k_annotations := None;
        k_labels := None; k_colors := Some ["red"]; k_key := None;
        k_show_label_selector := None |});
    (edited [ann_hello],
     {| k_text := None; k_selected_label := None; k_annotations := None;
        k_labels := None; k_colors := None; k_key := Some "b";
        k_show_label_selector := Some false |}) ].

Definition no_arguments : kwargs :=
  {| k_text := None; k_selected_label := None; k_annotations := None;
     k_labels := None; k_colors := None; k_key := None;
     k_show_label_selector := None |}.

(** ** The module around the wrapper

    The statements of the module outside [text_highlighter]: the [_RELEASE]
    constant and the demonstration that runs in development mode. *)

(** [c.lower()] for one character of ASCII text. *)
Definition lower_ascii (c : Ascii.ascii) : Ascii.ascii :=
  let n := Ascii.nat_of_ascii c in
  if Nat.leb 65 n && Nat.leb n 90 then Ascii.ascii_of_nat (n + 32) else c.

(** [s.lower()] on ASCII text; other bytes stay as they are. *)
Fixpoint lower (s : string) : string :=
  match s with
  | EmptyString => EmptyString
  | String c s' => String (lower_ascii c) (lower s')
  end.

(** [os.environ.get("RELEASE", True)]: the string of the variable, or the
    boolean default. *)
Definition environ_get_RELEASE (environ : gmap string string) : string + bool :=
  match environ !! "RELEASE" with
  | Some s => inl s
  | None => inr true
  end.

(** [str(v)] for a string or a boolean. *)
Definition str (v : string + bool) : string :=
  match v with
  | inl s => s
  | inr true => "True"
  | inr false => "False"
  end.

(** [_RELEASE = str(os.environ.get("RELEASE", True)).lower() in ["true", "1"]] *)
Definition _RELEASE (environ : gmap string string) : bool :=
  bool_decide (lower (str (environ_get_RELEASE environ)) ∈ ["true"; "1"]).

(** The calls the demonstration makes to Streamlit, in order. *)
Inductive st_call :=
  | st_subheader (body : string)
  | st_selectbox (label : string) (options : list string)
  | st_write (v : list annotation).

(** Lines 119-136, the body of [if not _RELEASE:].  [selectbox] is the
    choice of the user in [st.selectbox]; the list literal of line 126 is a
    new list object.  The result is the page written so far, the outcome and
    the final state. *)
Definition demo (fe : frontend) (selectbox : string -> list string -> option string)
    (w : world) : list st_call * (result unit * world) :=
  let page := [st_subheader "Component with constant args"] in
  let annotations := length (heap w) in
  let w := {| heap := heap w ++ [ [ann_hello] ]; renders := renders w |} in
  let label := selectbox "Select a label" ["PERSON"; "ORG"] in
  let page := page ++ [st_selectbox "Select a label" ["PERSON"; "ORG"]] in
  match call fe
          {| k_text := Some "Hello world! This is a demo. Second line";
             k_selected_label := label;
             k_annotations := Some annotations;
             k_labels := None;
             k_colors := None;
             k_key := None;
             k_show_label_selector := Some false |} w with
  | (inl e, w) => (page, (inl e, w))
  | (inr annotations, w) => (page ++ [st_write (heap w !!! annotations)], (inr tt, w))
  end.

(** The values of [RELEASE] that select release mode. *)
Definition release_spellings : list string :=
  [ "1";
    "true"; "truE"; "trUe"; "trUE"; "tRue"; "tRuE"; "tRUe"; "tRUE";
    "True"; "TruE"; "TrUe"; "TrUE"; "TRue"; "TRuE"; "TRUe"; "TRUE" ].

(** What the demonstration sends to the frontend: the default labels and
    their colours, and the label chosen in the select box (the first label
    when the box gives [None]). *)
Definition demo_args (selectbox : string -> list string -> option string)
  : frontend_args :=
  {| f_text := "Hello world! This is a demo. Second line";
     f_annotations := [ann_hello];
     f_colors := ["red"; "green"];
     f_labels := ["PERSON"; "ORG"];
     f_selected_label := default "PERSON" (selectbox "Select a label" ["PERSON"; "ORG"]);
     f_show_label_selector := false |}.

(** * Properties *)

(** ** The monad and the primitives *)

Section Primitives.
Context {A B : Type}.

Lemma getitem_Some (l : list A) i x w :
  l !! i = Some x -> getitem l i w = (inr x, w).
Proof. intros E. unfold getitem. now rewrite E. Qed.

(** A comprehension whose element expression never raises and leaves the
    state alone is a [map]. *)
Lemma comprehension_map (f : A -> M B) (g : A -> B) (xs : list A) :
  (forall x w, x ∈ xs -> f x w = (inr (g x), w)) ->
  forall w, comprehension f xs w = (inr (g <$> xs), w).
Proof.
  induction xs as [|x xs IH]; intros Hf w; [reflexivity|].
  cbn [comprehension]. unfold bind at 1.
  rewrite (Hf x w) by constructor.
  unfold bind at 1. rewrite IH; [reflexivity|].
  intros y w' Hy. apply Hf. now constructor.
Qed.
End Primitives.

(** ** The built-in colours *)

Lemma builtin_lookup i : all_colors !! (i mod 9) = Some (builtin i).
Proof.
  unfold builtin. apply list_lookup_lookup_total_lt.
  change (length all_colors) with 9. apply Nat.mod_upper_bound. discriminate.
Qed.

(** Lines 82-93 never raise: every index [i % 9] is inside [all_colors]. *)
Lemma default_colors_run n w :
  comprehension (fun i => getitem all_colors (i mod length all_colors)) (range n) w
  = (inr (builtin <$> seq 0 n), w).
Proof.
  apply comprehension_map. intros i w' _.
  apply getitem_Some. change (length all_colors) with 9. apply builtin_lookup.
Qed.

Lemma default_colors_length n : length (builtin <$> seq 0 n) = n.
Proof. now rewrite length_fmap, length_seq. Qed.

Lemma default_colors_lookup n i :
  i < n -> (builtin <$> seq 0 n) !! i = all_colors !! (i mod 9).
Proof.
  intros Hi. rewrite list_lookup_fmap, lookup_seq_lt by exact Hi.
  rewrite builtin_lookup. reflexivity.
Qed.

(** ** The wrapper, case by case *)

Section Wrapper.
Variable fe : frontend.
Variables (text : string) (selected_label : option string) (annotations : loc).
Variables (labels : string + list string) (colors : option (list string)).
Variables (key : option string) (show_label_selector : bool).

Local Abbreviation L := (labels_list labels).

(** What the wrapper does, in one equation: it raises [IndexError] when no
    selected label can be chosen, else [AssertionError] when the explicit
    colours do not match the labels in number, else it calls the component
    once and returns its value. *)
Lemma text_highlighter_run w :
  text_highlighter fe text selected_label annotations labels colors key
    show_label_selector w =
  match selected_of selected_label L with
  | None => (inl IndexError, w)
  | Some sl =>
      match colors_of colors L with
      | None => (inl (AssertionError length_message), w)
      | Some cs =>
          _component_func fe
            {| c_text := text; c_annotations := annotations; c_colors := cs;
               c_labels := L; c_key := key; c_default := annotations;
               c_selected_label := sl;
               c_show_label_selector := show_label_selector |} w
      end
  end.
Proof.
  unfold text_highlighter.
  assert (Hsel : forall k : string -> M loc,
    bind (match selected_label with
          | None => getitem L 0 | Some s => ret s end) k w =
    match selected_of selected_label L with
    | None => (inl IndexError, w) | Some sl => k sl w end).
  { intros k. unfold selected_of. destruct selected_label as [s|]; [reflexivity|].
    unfold bind, getitem. now destruct (L !! 0). }
  rewrite Hsel. destruct (selected_of selected_label L) as [sl|]; [|reflexivity].
  unfold colors_of. destruct colors as [cs|].
  - unfold bind at 1. unfold bind at 1. unfold assert.
    destruct (Nat.eqb (length cs) (length L)); cbn.
    + unfold bind. now destruct (_component_func _ _ w) as [[e|l] w'].
    + reflexivity.
  - unfold bind at 1. rewrite default_colors_run.
    unfold bind. now destruct (_component_func _ _ w) as [[e|l] w'].
Qed.
End Wrapper.

(** The component call, observed. *)
Lemma component_func_run fe c w :
  _component_func fe c w =
  let sent := serialise (heap w) c in
  match fe (c_key c) sent with
  | None => (inr (c_default c),
             {| heap := heap w; renders := renders w ++ [(c_key c, sent)] |})
  | Some v => (inr (length (heap w)),
               {| heap := heap w ++ [v]; renders := renders w ++ [(c_key c, sent)] |})
  end.
Proof. reflexivity. Qed.

Lemma component_func_renders fe c w :
  new_renders w (_component_func fe c w) = [(c_key c, serialise (heap w) c)].
Proof.
  unfold new_renders, _component_func.
  destruct (fe _ _); cbn; now rewrite drop_app_length.
Qed.

Lemma component_func_heap fe c w :
  heap w `prefix_of` heap (_component_func fe c w).2.
Proof.
  unfold _component_func. destruct (fe _ _); cbn; [|reflexivity].
  now apply prefix_app_r.
Qed.

Lemma new_renders_same {A} (e : result A) w : new_renders w (e, w) = [].
Proof. unfold new_renders. cbn. apply drop_all. Qed.

(** Every call leaves the list objects that exist in place: it can only
    add a new one (the value the frontend has set). *)
Lemma text_highlighter_heap fe text sel ann labels colors key show w :
  heap w `prefix_of`
  heap (text_highlighter fe text sel ann labels colors key show w).2.
Proof.
  rewrite text_highlighter_run.
  destruct (selected_of _ _); [|reflexivity].
  destruct (colors_of _ _); [|reflexivity].
  apply component_func_heap.
Qed.

Lemma run_calls_heap calls : forall w, heap w `prefix_of` heap (run_calls calls w).
Proof.
  induction calls as [|[fe k] calls IH]; intros w; cbn [run_calls]; [reflexivity|].
  etransitivity; [|apply IH]. apply text_highlighter_heap.
Qed.

(** The only exceptions of a call are the [IndexError] of [labels[0]] and
    the [AssertionError] of the [assert]. *)
Lemma text_highlighter_raises fe text sel ann labels colors key show w e :
  (text_highlighter fe text sel ann labels colors key show w).1 = inl e ->
  e = IndexError \/ e = AssertionError length_message.
Proof.
  rewrite text_highlighter_run.
  destruct (selected_of _ _); [|cbn; intros [= <-]; now left].
  destruct (colors_of _ _); [|cbn; intros [= <-]; now right].
  rewrite component_func_run. cbn. now destruct (fe _ _).
Qed.

(** The one render of a call that gets as far as the component. *)
Lemma text_highlighter_renders fe text sel ann labels colors key show w sl cs :
  selected_of sel (labels_list labels) = Some sl ->
  colors_of colors (labels_list labels) = Some cs ->
  new_renders w (text_highlighter fe text sel ann labels colors key show w) =
  [(key, {| f_text := text; f_annotations := heap w !!! ann; f_colors := cs;
            f_labels := labels_list labels; f_selected_label := sl;
            f_show_label_selector := show |})].
Proof.
  intros Hs Hc. rewrite text_highlighter_run, Hs, Hc.
  apply component_func_renders.
Qed.

(** A call renders at most once, and what it sends is fixed by its
    arguments and the state it starts in. *)
Lemma text_highlighter_renders_cases fe text sel ann labels colors key show w :
  new_renders w (text_highlighter fe text sel ann labels colors key show w) =
  match selected_of sel (labels_list labels), colors_of colors (labels_list labels) with
  | Some sl, Some cs =>
      [(key, {| f_text := text; f_annotations := heap w !!! ann; f_colors := cs;
                f_labels := labels_list labels; f_selected_label := sl;
                f_show_label_selector := show |})]
  | _, _ => []
  end.
Proof.
  destruct (selected_of _ _) as [sl|] eqn:Hs.
  - destruct (colors_of _ _) as [cs|] eqn:Hc.
    + now apply text_highlighter_renders.
    + rewrite text_highlighter_run, Hs, Hc. apply new_renders_same.
  - rewrite text_highlighter_run, Hs. apply new_renders_same.
Qed.

(** ** The palette *)

(** C1: with [colors] omitted, each render of the call carries the labels
    and a colour list of the same length whose entry [i] is entry [i mod 9]
    of the list red, green, blue, yellow, orange, purple, pink, cyan, gray,
    written out in the statement; the render takes place whenever a selected label can be
    chosen; and the colours depend on the labels alone: two calls with the
    same labels, whatever else differs, send the same colours. *)
Theorem palette_default fe text sel ann labels key show w :
  Forall (fun p =>
            f_labels p.2 = labels_list labels /\
            length (f_colors p.2) = length (labels_list labels) /\
            forall i, i < length (labels_list labels) ->
                      f_colors p.2 !! i
                      = [ "red"; "green"; "blue"; "yellow"; "orange"; "purple";
                          "pink"; "cyan"; "gray" ] !! (i mod 9))
         (new_renders w (text_highlighter fe text sel ann labels None key show w))
  /\ (is_Some (selected_of sel (labels_list labels)) ->
      exists args,
        new_renders w (text_highlighter fe text sel ann labels None key show w)
        = [(key, args)])
  /\ (forall fe' text' sel' ann' key' show' w',
        Forall (fun p =>
          Forall (fun p' => f_colors p.2 = f_colors p'.2)
            (new_renders w' (text_highlighter fe' text' sel' ann' labels None key' show' w')))
          (new_renders w (text_highlighter fe text sel ann labels None key show w))).
Proof.
  split; [|split].
  - rewrite text_highlighter_renders_cases. cbn [colors_of].
    destruct (selected_of _ _); [|constructor].
    repeat constructor; cbn.
    + apply default_colors_length.
    + intros i Hi. exact (default_colors_lookup _ i Hi).
  - intros [sl Hs]. eexists.
    eapply text_highlighter_renders; [exact Hs|reflexivity].
  - intros. rewrite !text_highlighter_renders_cases. cbn [colors_of].
    destruct (selected_of sel _), (selected_of sel' _); repeat constructor.
Qed.

Lemma palette_default_witness :
  2 < length (labels_list (inr ten_labels)) /\
  8 < length (labels_list (inr ten_labels)) /\
  9 < length (labels_list (inr ten_labels)) /\
  Forall (fun p => f_colors p.2 !! 2 = Some "blue"
                   /\ f_colors p.2 !! 8 = Some "gray"
                   /\ f_colors p.2 !! 9 = Some "red")
    (new_renders init_world
       (text_highlighter no_interaction "Hello world!" None default_annotations
          (inr ten_labels) None None true init_world)).
Proof.
  assert (H2 : 2 < length (labels_list (inr ten_labels)))
    by (unfold ten_labels; cbn; lia).
  assert (H8 : 8 < length (labels_list (inr ten_labels)))
    by (unfold ten_labels; cbn; lia).
  assert (H9 : 9 < length (labels_list (inr ten_labels)))
    by (unfold ten_labels; cbn; lia).
  split; [exact H2|]. split; [exact H8|]. split; [exact H9|].
  destruct (palette_default no_interaction "Hello world!" None default_annotations
              (inr ten_labels) None true init_world) as [H _].
  eapply Forall_impl; [exact H|].
  intros p (_ & _ & Hi).
  split; [exact (Hi 2 H2)|]. split; [exact (Hi 8 H8)|exact (Hi 9 H9)].
Defined.

(** ** The selected label *)

(** C5: for a non-empty label sequence and no [selected_label], every
    render of the call carries the first label as the selected label; and
    the render takes place whenever the colours resolve ([colors] omitted or
    as many as the labels). *)
Theorem selected_label_default fe text ann first rest colors key show w :
  Forall (fun p => f_selected_label p.2 = first)
    (new_renders w
       (text_highlighter fe text None ann (inr (first :: rest)) colors key show w))
  /\ (is_Some (colors_of colors (first :: rest)) ->
      exists args,
        new_renders w
          (text_highlighter fe text None ann (inr (first :: rest)) colors key show w)
        = [(key, args)] /\ f_selected_label args = first).
Proof.
  split.
  - rewrite text_highlighter_renders_cases. cbn [selected_of labels_list lookup list_lookup].
    destruct (colors_of _ _); repeat constructor.
  - intros [cs Hc]. eexists. split.
    + eapply text_highlighter_renders; [reflexivity|exact Hc].
    + reflexivity.
Qed.

Lemma selected_label_default_witness :
  is_Some (colors_of None ["PERSON"; "ORG"]) /\
  exists args,
    new_renders init_world
      (text_highlighter no_interaction "Hello world!" None default_annotations
         (inr ["PERSON"; "ORG"]) None None true init_world)
    = [(None, args)] /\ f_selected_label args = "PERSON".
Proof.
  assert (H : is_Some (colors_of None ["PERSON"; "ORG"])) by (eexists; reflexivity).
  split; [exact H|].
  exact (proj2 (selected_label_default no_interaction "Hello world!"
                  default_annotations "PERSON" ["ORG"] None None true init_world) H).
Defined.

(** C9: a single string [s] given as [labels] is the one-element label
    set: the call behaves as the call with the list [[s]], and with no
    [selected_label] and no [colors] its one render carries [[s]] as the
    labels, [s] as the selected label and the first built-in colour. *)
Theorem single_string_label fe text ann s key show w :
  (forall sel colors,
     text_highlighter fe text sel ann (inl s) colors key show w =
     text_highlighter fe text sel ann (inr [s]) colors key show w)
  /\ new_renders w (text_highlighter fe text None ann (inl s) None key show w) =
     [(key, {| f_text := text; f_annotations := heap w !!! ann;
               f_colors := ["red"]; f_labels := [s]; f_selected_label := s;
               f_show_label_selector := show |})].
Proof.
  split; [reflexivity|].
  now rewrite (text_highlighter_renders _ _ _ _ _ _ _ _ _ s ["red"]).
Qed.

(** C6, as stated, fails: the exception is not [ConfigurationError]. *)
Lemma empty_labels_not_ConfigurationError :
  ~ empty_labels_raise_ConfigurationError
      no_interaction "Hello world!" default_annotations None None true init_world.
Proof. unfold empty_labels_raise_ConfigurationError. vm_compute. discriminate. Qed.

(** C6, amended: with an empty label set and no [selected_label] the call
    raises [IndexError] (from [labels[0]]), before any render: the state,
    and with it the log of renders, is the one the call started in. *)
Theorem empty_labels_raise_IndexError fe text ann colors key show w :
  text_highlighter fe text None ann (inr []) colors key show w = (inl IndexError, w)
  /\ new_renders w (text_highlighter fe text None ann (inr []) colors key show w) = [].
Proof.
  rewrite text_highlighter_run. cbn. split; [reflexivity|apply new_renders_same].
Qed.

(** ** Explicit colours *)

(** C4, as stated, fails on the document's own example: labels [A, B],
    colours [red]. *)
Lemma mismatch_not_ConfigurationError :
  ~ mismatch_raises_ConfigurationError
      no_interaction "Hello world!" None default_annotations (inr ["A"; "B"])
      ["red"] None true init_world.
Proof.
  unfold mismatch_raises_ConfigurationError. intros H.
  assert (Hlen : length ["red"] <> length (labels_list (inr ["A"; "B"])))
    by (cbn; lia).
  specialize (H Hlen). vm_compute in H. discriminate.
Qed.

(** C4, amended: when a selected label can be chosen, explicit colours of
    another length than the labels make the call raise [AssertionError]
    with the message of the [assert], before any render; explicit colours of
    the same length are sent as they are, next to the labels, so position
    [i] pairs [labels[i]] with [colors[i]]. *)
Theorem explicit_colors fe text sel ann labels cs key show w sl :
  selected_of sel (labels_list labels) = Some sl ->
  (length cs <> length (labels_list labels) ->
     text_highlighter fe text sel ann labels (Some cs) key show w
     = (inl (AssertionError "Colors and labels must be the same length"), w))
  /\ (length cs = length (labels_list labels) ->
      new_renders w (text_highlighter fe text sel ann labels (Some cs) key show w)
      = [(key, {| f_text := text; f_annotations := heap w !!! ann;
                  f_colors := cs; f_labels := labels_list labels;
                  f_selected_label := sl; f_show_label_selector := show |})]).
Proof.
  intros Hs. split; intros Hlen.
  - rewrite text_highlighter_run, Hs. cbn [colors_of].
    apply Nat.eqb_neq in Hlen. now rewrite Hlen.
  - apply text_highlighter_renders; [exact Hs|]. cbn [colors_of].
    apply Nat.eqb_eq in Hlen. now rewrite Hlen.
Qed.

Lemma explicit_colors_witness :
  selected_of None (labels_list (inr ["A"; "B"])) = Some "A" /\
  length ["red"] <> length (labels_list (inr ["A"; "B"])) /\
  length ["red"; "blue"] = length (labels_list (inr ["A"; "B"])) /\
  text_highlighter no_interaction "Hello world!" None default_annotations
    (inr ["A"; "B"]) (Some ["red"]) None true init_world
  = (inl (AssertionError "Colors and labels must be the same length"), init_world) /\
  new_renders init_world
    (text_highlighter no_interaction "Hello world!" None default_annotations
       (inr ["A"; "B"]) (Some ["red"; "blue"]) None true init_world)
  = [(None, {| f_text := "Hello world!"; f_annotations := [];
               f_colors := ["red"; "blue"]; f_labels := ["A"; "B"];
               f_selected_label := "A"; f_show_label_selector := true |})].
Proof.
  assert (Hs : selected_of None (labels_list (inr ["A"; "B"])) = Some "A")
    by reflexivity.
  assert (Hne : length ["red"] <> length (labels_list (inr ["A"; "B"])))
    by (cbn; lia).
  assert (Heq : length ["red"; "blue"] = length (labels_list (inr ["A"; "B"])))
    by reflexivity.
  split; [exact Hs|]. split; [exact Hne|]. split; [exact Heq|]. split.
  - exact (proj1 (explicit_colors no_interaction "Hello world!" None
                    default_annotations (inr ["A"; "B"]) ["red"] None true
                    init_world "A" Hs) Hne).
  - exact (proj2 (explicit_colors no_interaction "Hello world!" None
                    default_annotations (inr ["A"; "B"]) ["red"; "blue"] None true
                    init_world "A" Hs) Heq).
Defined.

(** ** The value returned *)

(** The outcome of a call that gets as far as the component. *)
Lemma text_highlighter_value fe text sel ann labels colors key show w sl cs :
  selected_of sel (labels_list labels) = Some sl ->
  colors_of colors (labels_list labels) = Some cs ->
  let sent := {| f_text := text; f_annotations := heap w !!! ann; f_colors := cs;
                 f_labels := labels_list labels; f_selected_label := sl;
                 f_show_label_selector := show |} in
  text_highlighter fe text sel ann labels colors key show w =
  match fe key sent with
  | None => (inr ann, {| heap := heap w; renders := renders w ++ [(key, sent)] |})
  | Some v => (inr (length (heap w)),
               {| heap := heap w ++ [v]; renders := renders w ++ [(key, sent)] |})
  end.
Proof. intros Hs Hc. now rewrite text_highlighter_run, Hs, Hc. Qed.

(** C3: in a session in which the frontend has set no value yet, a call
    whose configuration resolves returns its [annotations] argument: the
    very list object that was passed in, with the contents it had.  This
    holds for every annotation list, the valid ones among them. *)
Theorem fresh_session_returns_input fe text sel ann labels colors key show w sl cs :
  selected_of sel (labels_list labels) = Some sl ->
  colors_of colors (labels_list labels) = Some cs ->
  fe key {| f_text := text; f_annotations := heap w !!! ann; f_colors := cs;
            f_labels := labels_list labels; f_selected_label := sl;
            f_show_label_selector := show |} = None ->
  (text_highlighter fe text sel ann labels colors key show w).1 = inr ann
  /\ heap (text_highlighter fe text sel ann labels colors key show w).2 !!! ann
     = heap w !!! ann.
Proof.
  intros Hs Hc Hfe.
  rewrite (text_highlighter_value _ _ _ _ _ _ _ _ _ _ _ Hs Hc), Hfe.
  split; reflexivity.
Qed.

Lemma fresh_session_returns_input_witness :
  selected_of None (labels_list (inr ["PERSON"; "ORG"])) = Some "PERSON" /\
  colors_of None (labels_list (inr ["PERSON"; "ORG"])) = Some ["red"; "green"] /\
  no_interaction None
    {| f_text := "Hello world!";
       f_annotations := heap (world_with [ann_hello]) !!! 1;
       f_colors := ["red"; "green"];
       f_labels := labels_list (inr ["PERSON"; "ORG"]);
       f_selected_label := "PERSON"; f_show_label_selector := true |} = None /\
  (text_highlighter no_interaction "Hello world!" None 1 (inr ["PERSON"; "ORG"])
     None None true (world_with [ann_hello])).1 = inr 1 /\
  heap (text_highlighter no_interaction "Hello world!" None 1 (inr ["PERSON"; "ORG"])
          None None true (world_with [ann_hello])).2 !!! 1
  = heap (world_with [ann_hello]) !!! 1.
Proof.
  split; [reflexivity|]. split; [reflexivity|]. split; [reflexivity|].
  apply (fresh_session_returns_input no_interaction "Hello world!" None 1
           (inr ["PERSON"; "ORG"]) None None true (world_with [ann_hello])
           "PERSON" ["red"; "green"]); reflexivity.
Defined.

(** C8: when the frontend has set a value [v], a call whose configuration
    resolves returns a list object that holds exactly [v]: the same
    annotations in the same order, with nothing removed, merged or changed. *)
Theorem frontend_value_returned fe text sel ann labels colors key show w sl cs v :
  selected_of sel (labels_list labels) = Some sl ->
  colors_of colors (labels_list labels) = Some cs ->
  fe key {| f_text := text; f_annotations := heap w !!! ann; f_colors := cs;
            f_labels := labels_list labels; f_selected_label := sl;
            f_show_label_selector := show |} = Some v ->
  exists l,
    (text_highlighter fe text sel ann labels colors key show w).1 = inr l
    /\ heap (text_highlighter fe text sel ann labels colors key show w).2 !! l
       = Some v.
Proof.
  intros Hs Hc Hfe. exists (length (heap w)).
  rewrite (text_highlighter_value _ _ _ _ _ _ _ _ _ _ _ Hs Hc), Hfe.
  split; [reflexivity|]. cbn.
  rewrite lookup_app_r by reflexivity. now rewrite Nat.sub_diag.
Qed.

Lemma frontend_value_returned_witness :
  selected_of (Some "ORG") (labels_list (inl "ORG")) = Some "ORG" /\
  colors_of (Some ["blue"]) (labels_list (inl "ORG")) = Some ["blue"] /\
  edited unsorted_value (Some "k")
    {| f_text := "hi"; f_annotations := heap init_world !!! default_annotations;
       f_colors := ["blue"]; f_labels := labels_list (inl "ORG");
       f_selected_label := "ORG"; f_show_label_selector := false |}
  = Some unsorted_value /\
  exists l,
    (text_highlighter (edited unsorted_value) "hi" (Some "ORG") default_annotations
       (inl "ORG") (Some ["blue"]) (Some "k") false init_world).1 = inr l
    /\ heap (text_highlighter (edited unsorted_value) "hi" (Some "ORG")
               default_annotations (inl "ORG") (Some ["blue"]) (Some "k") false
               init_world).2 !! l
       = Some unsorted_value.
Proof.
  split; [reflexivity|]. split; [reflexivity|]. split; [reflexivity|].
  apply (frontend_value_returned (edited unsorted_value) "hi" (Some "ORG")
           default_annotations (inl "ORG") (Some ["blue"]) (Some "k") false
           init_world "ORG" ["blue"] unsorted_value); reflexivity.
Defined.

(** ** Validation *)

(** The document's two examples, run through the wrapper: the annotation
    that ends beyond the text and the one with an unknown tag both reach the
    frontend, and the call returns the list it was given. *)
Example out_of_range_is_rendered :
  text_highlighter no_interaction "hi" None 1 (inr ["ORG"]) None None true
    (world_with [ann_out_of_range])
  = (inr 1,
     {| heap := [ []; [ann_out_of_range] ];
        renders := [(None, {| f_text := "hi"; f_annotations := [ann_out_of_range];
                              f_colors := ["red"]; f_labels := ["ORG"];
                              f_selected_label := "ORG";
                              f_show_label_selector := true |})] |}).
Proof. vm_compute. reflexivity. Qed.

Example unknown_tag_is_rendered :
  text_highlighter no_interaction "hi" None 1 (inr ["PERSON"; "ORG"]) None None true
    (world_with [ann_unknown_tag])
  = (inr 1,
     {| heap := [ []; [ann_unknown_tag] ];
        renders := [(None, {| f_text := "hi"; f_annotations := [ann_unknown_tag];
                              f_colors := ["red"; "green"];
                              f_labels := ["PERSON"; "ORG"];
                              f_selected_label := "PERSON";
                              f_show_label_selector := true |})] |}).
Proof. vm_compute. reflexivity. Qed.

(** C2, as stated, fails on the document's example of a span that ends at
    1000 in the text "hi". *)
Lemma invalid_annotation_accepted :
  ~ rejects_invalid_annotations no_interaction "hi" None 1 (inr ["ORG"]) None None
      true (world_with [ann_out_of_range]).
Proof.
  intros H. specialize (H ann_out_of_range).
  rewrite out_of_range_is_rendered in H.
  assert (Hin : ann_out_of_range ∈ heap (world_with [ann_out_of_range]) !!! 1)
    by (cbn; constructor).
  assert (Hbad : valid_annotation (labels_list (inr ["ORG"])) "hi" ann_out_of_range
                 = false) by (vm_compute; reflexivity).
  specialize (H Hin Hbad). discriminate.
Qed.

(** C2, amended: the wrapper does not look into the annotations.  No call
    raises [ValidationError]; a call returns a value exactly when a selected
    label and the colours resolve, whatever the annotations are; and it then
    sends the list as it stands, in one render. *)
Theorem annotations_not_validated fe text sel ann labels colors key show w :
  (text_highlighter fe text sel ann labels colors key show w).1 <> inl ValidationError
  /\ ((exists l, (text_highlighter fe text sel ann labels colors key show w).1 = inr l)
      <-> is_Some (selected_of sel (labels_list labels))
          /\ is_Some (colors_of colors (labels_list labels)))
  /\ (forall sl cs,
        selected_of sel (labels_list labels) = Some sl ->
        colors_of colors (labels_list labels) = Some cs ->
        new_renders w (text_highlighter fe text sel ann labels colors key show w)
        = [(key, {| f_text := text; f_annotations := heap w !!! ann;
                    f_colors := cs; f_labels := labels_list labels;
                    f_selected_label := sl; f_show_label_selector := show |})]).
Proof.
  split; [|split].
  - intros He. now destruct (text_highlighter_raises _ _ _ _ _ _ _ _ _ _ He).
  - rewrite text_highlighter_run.
    destruct (selected_of _ _) as [sl|].
    + destruct (colors_of _ _) as [cs|].
      * rewrite component_func_run. cbn. destruct (fe _ _); cbn; split; eauto.
      * cbn. split; [intros [l Hl]; discriminate|].
        intros [_ [x Hx]]. discriminate.
    + cbn. split; [intros [l Hl]; discriminate|].
      intros [[x Hx] _]. discriminate.
  - intros sl cs Hs Hc. now apply text_highlighter_renders.
Qed.

Lemma annotations_not_validated_witness :
  selected_of None (labels_list (inr ["PERSON"; "ORG"])) = Some "PERSON" /\
  colors_of None (labels_list (inr ["PERSON"; "ORG"])) = Some ["red"; "green"] /\
  new_renders (world_with [ann_unknown_tag])
    (text_highlighter no_interaction "hi" None 1 (inr ["PERSON"; "ORG"]) None None
       true (world_with [ann_unknown_tag]))
  = [(None, {| f_text := "hi";
               f_annotations := heap (world_with [ann_unknown_tag]) !!! 1;
               f_colors := ["red"; "green"];
               f_labels := labels_list (inr ["PERSON"; "ORG"]);
               f_selected_label := "PERSON"; f_show_label_selector := true |})].
Proof.
  split; [reflexivity|]. split; [reflexivity|].
  apply (proj2 (proj2 (annotations_not_validated no_interaction "hi" None 1
                         (inr ["PERSON"; "ORG"]) None None true
                         (world_with [ann_unknown_tag])))); reflexivity.
Defined.

(** The document's end-to-end example: "Hello" tagged ORG and coloured red,
    while the palette gives green to ORG. *)
Example hello_palette :
  colors_of None ["PERSON"; "ORG"] = Some ["red"; "green"] /\
  palette ["PERSON"; "ORG"] ["red"; "green"] "ORG" = Some "green" /\
  ann_hello !! "color" = Some (VStr "red").
Proof. repeat split; vm_compute; reflexivity. Qed.

(** C7, as stated, fails on the document's end-to-end example. *)
Lemma stale_color_accepted :
  ~ rejects_stale_color no_interaction "Hello world!" None 1 (inr ["PERSON"; "ORG"])
      None None true (world_with [ann_hello]).
Proof.
  intros H. specialize (H ["red"; "green"] ann_hello).
  assert (Hc : colors_of None (labels_list (inr ["PERSON"; "ORG"]))
               = Some ["red"; "green"]) by reflexivity.
  assert (Hin : ann_hello ∈ heap (world_with [ann_hello]) !!! 1)
    by (cbn; constructor).
  assert (Hbad : color_consistent (labels_list (inr ["PERSON"; "ORG"]))
                   ["red"; "green"] ann_hello = false) by (vm_compute; reflexivity).
  specialize (H Hc Hin Hbad). vm_compute in H. discriminate.
Qed.

(** C7, amended: the [color] of an annotation is not compared with the
    palette.  When the configuration resolves, an annotation whose colour
    disagrees with the colour of its tag is sent to the frontend as it is,
    next to the resolved colours, and the call returns a value; in a session
    without a value set by the frontend that value is the input list, the
    annotation still in it. *)
Theorem stale_color_passed_through fe text sel ann labels colors key show w sl cs a :
  selected_of sel (labels_list labels) = Some sl ->
  colors_of colors (labels_list labels) = Some cs ->
  a ∈ heap w !!! ann ->
  color_consistent (labels_list labels) cs a = false ->
  (exists args,
     new_renders w (text_highlighter fe text sel ann labels colors key show w)
     = [(key, args)] /\ f_colors args = cs /\ a ∈ f_annotations args)
  /\ (exists l, (text_highlighter fe text sel ann labels colors key show w).1 = inr l)
  /\ ((forall args, fe key args = None) ->
      (text_highlighter fe text sel ann labels colors key show w).1 = inr ann
      /\ a ∈ heap (text_highlighter fe text sel ann labels colors key show w).2 !!! ann).
Proof.
  intros Hs Hc Hin _. split; [|split].
  - eexists. split; [eapply text_highlighter_renders; eassumption|].
    split; [reflexivity|exact Hin].
  - rewrite (text_highlighter_value _ _ _ _ _ _ _ _ _ _ _ Hs Hc).
    destruct (fe _ _); eauto.
  - intros Hfe. rewrite (text_highlighter_value _ _ _ _ _ _ _ _ _ _ _ Hs Hc), Hfe.
    split; [reflexivity|exact Hin].
Qed.

Lemma stale_color_passed_through_witness :
  selected_of None (labels_list (inr ["PERSON"; "ORG"])) = Some "PERSON" /\
  colors_of None (labels_list (inr ["PERSON"; "ORG"])) = Some ["red"; "green"] /\
  ann_hello ∈ heap (world_with [ann_hello]) !!! 1 /\
  color_consistent (labels_list (inr ["PERSON"; "ORG"])) ["red"; "green"] ann_hello
  = false /\
  (forall args, no_interaction None args = None) /\
  (text_highlighter no_interaction "Hello world!" None 1 (inr ["PERSON"; "ORG"])
     None None true (world_with [ann_hello])).1 = inr 1 /\
  ann_hello ∈
    heap (text_highlighter no_interaction "Hello world!" None 1
            (inr ["PERSON"; "ORG"]) None None true (world_with [ann_hello])).2 !!! 1.
Proof.
  assert (Hs : selected_of None (labels_list (inr ["PERSON"; "ORG"])) = Some "PERSON")
    by reflexivity.
  assert (Hc : colors_of None (labels_list (inr ["PERSON"; "ORG"]))
               = Some ["red"; "green"]) by reflexivity.
  assert (Hin : ann_hello ∈ heap (world_with [ann_hello]) !!! 1)
    by (cbn; constructor).
  assert (Hbad : color_consistent (labels_list (inr ["PERSON"; "ORG"]))
                   ["red"; "green"] ann_hello = false) by (vm_compute; reflexivity).
  assert (Hfe : forall args, no_interaction None args = None) by reflexivity.
  split; [exact Hs|]. split; [exact Hc|]. split; [exact Hin|]. split; [exact Hbad|].
  split; [exact Hfe|].
  exact (proj2 (proj2 (stale_color_passed_through no_interaction "Hello world!" None 1
                         (inr ["PERSON"; "ORG"]) None None true
                         (world_with [ann_hello]) "PERSON" ["red"; "green"] ann_hello
                         Hs Hc Hin Hbad)) Hfe).
Defined.


(** ** The annotations argument is only read *)

(** The render of a call by keyword arguments: an omitted [annotations]
    reads the shared default list object. *)
Lemma call_renders fe k w :
  new_renders w (call fe k w) =
  match selected_of (k_selected_label k)
          (labels_list (default (inr ["PERSON"; "ORG"]) (k_labels k))),
        colors_of (k_colors k)
          (labels_list (default (inr ["PERSON"; "ORG"]) (k_labels k))) with
  | Some sl, Some cs =>
      [(k_key k,
        {| f_text := default "Hello world!" (k_text k);
           f_annotations := heap w !!! default default_annotations (k_annotations k);
           f_colors := cs;
           f_labels := labels_list (default (inr ["PERSON"; "ORG"]) (k_labels k));
           f_selected_label := sl;
           f_show_label_selector := default true (k_show_label_selector k) |})]
  | _, _ => []
  end.
Proof. unfold call. apply text_highlighter_renders_cases. Qed.

(** In a session without interaction a call that omits [annotations]
    returns the shared default itself, not a copy: the caller then holds the
    list object that later calls read. *)
Lemma call_returns_shared_default k w sl cs :
  k_annotations k = None ->
  selected_of (k_selected_label k)
    (labels_list (default (inr ["PERSON"; "ORG"]) (k_labels k))) = Some sl ->
  colors_of (k_colors k)
    (labels_list (default (inr ["PERSON"; "ORG"]) (k_labels k))) = Some cs ->
  (call no_interaction k w).1 = inr default_annotations.
Proof.
  intros Hk Hs Hc. unfold call.
  rewrite (text_highlighter_value _ _ _ _ _ _ _ _ _ _ _ Hs Hc), Hk. reflexivity.
Qed.

(** C10: a call does not change any list object that exists when it
    starts, so neither the list passed as [annotations] nor the shared
    default; the same holds for any sequence of calls; and when the shared
    default is empty to begin with, a call that omits [annotations] sends
    the empty list to the frontend, whatever calls came before it. *)
Theorem annotations_not_mutated fe text sel ann labels colors key show calls w :
  (forall l (x : list annotation),
     heap w !! l = Some x ->
     heap (text_highlighter fe text sel ann labels colors key show w).2 !! l = Some x)
  /\ (forall l (x : list annotation),
        heap w !! l = Some x -> heap (run_calls calls w) !! l = Some x)
  /\ (heap w !! default_annotations = Some [] ->
      forall fe' k,
        k_annotations k = None ->
        Forall (fun p => f_annotations p.2 = [])
          (new_renders (run_calls calls w) (call fe' k (run_calls calls w)))
        /\ (is_Some (selected_of (k_selected_label k)
                       (labels_list (default (inr ["PERSON"; "ORG"]) (k_labels k)))) ->
            is_Some (colors_of (k_colors k)
                       (labels_list (default (inr ["PERSON"; "ORG"]) (k_labels k)))) ->
            exists args,
              new_renders (run_calls calls w) (call fe' k (run_calls calls w))
              = [(k_key k, args)] /\ f_annotations args = [])).
Proof.
  split; [|split].
  - intros l x Hl. eapply prefix_lookup_Some; [exact Hl|].
    apply text_highlighter_heap.
  - intros l x Hl. eapply prefix_lookup_Some; [exact Hl|].
    apply run_calls_heap.
  - intros Hd fe' k Hk.
    assert (Hd' : heap (run_calls calls w) !!! default_annotations = []).
    { apply list_lookup_total_correct.
      eapply prefix_lookup_Some; [exact Hd|]. apply run_calls_heap. }
    rewrite call_renders, Hk. cbn [default from_option].
    split.
    + destruct (selected_of _ _); [|constructor].
      destruct (colors_of _ _); repeat constructor. exact Hd'.
    + intros [sl ->] [cs ->]. eexists. split; [reflexivity|exact Hd'].
Qed.

Lemma annotations_not_mutated_witness :
  heap (world_with [ann_hello]) !! 1 = Some [ann_hello] /\
  heap (world_with [ann_hello]) !! default_annotations = Some [] /\
  k_annotations no_arguments = None /\
  heap (run_calls three_calls (world_with [ann_hello])) !! 1 = Some [ann_hello] /\
  Forall (fun p => f_annotations p.2 = [])
    (new_renders (run_calls three_calls (world_with [ann_hello]))
       (call no_interaction no_arguments
          (run_calls three_calls (world_with [ann_hello])))).
Proof.
  assert (H1 : heap (world_with [ann_hello]) !! 1 = Some [ann_hello]) by reflexivity.
  assert (H0 : heap (world_with [ann_hello]) !! default_annotations = Some [])
    by reflexivity.
  assert (Hk : k_annotations no_arguments = None) by reflexivity.
  split; [exact H1|]. split; [exact H0|]. split; [exact Hk|].
  destruct (annotations_not_mutated no_interaction "hi" None 1 (inl "ORG") None None
              true three_calls (world_with [ann_hello])) as (_ & Hseq & Hdef).
  split.
  - exact (Hseq 1 [ann_hello] H1).
  - exact (proj1 (Hdef H0 no_interaction no_arguments Hk)).
Defined.


(** * Further properties of the wrapper *)

(** ** Exceptions *)

(** X1: a call that raises has done nothing: the state is the one it
    started in (nothing rendered, no object created).  It raises
    [IndexError] only when no [selected_label] is given and the labels are
    empty, and [AssertionError] only when a selected label was found and the
    explicit colours differ from the labels in number. *)
Theorem failure_leaves_state fe text sel ann labels colors key show w e :
  (text_highlighter fe text sel ann labels colors key show w).1 = inl e ->
  (text_highlighter fe text sel ann labels colors key show w).2 = w
  /\ ((e = IndexError /\ sel = None /\ labels_list labels = [])
      \/ (e = AssertionError "Colors and labels must be the same length"
          /\ is_Some (selected_of sel (labels_list labels))
          /\ exists cs, colors = Some cs
                        /\ length cs <> length (labels_list labels))).
Proof.
  rewrite text_highlighter_run.
  destruct (selected_of sel (labels_list labels)) as [sl|] eqn:Hs.
  - destruct (colors_of colors (labels_list labels)) as [cs|] eqn:Hc.
    + rewrite component_func_run. cbn. destruct (fe _ _); discriminate.
    + cbn. intros [= <-]. split; [reflexivity|]. right.
      split; [reflexivity|]. split; [eauto|].
      destruct colors as [cs|]; [|discriminate]. exists cs. split; [reflexivity|].
      cbn in Hc. destruct (Nat.eqb _ _) eqn:E; [discriminate|].
      now apply Nat.eqb_neq.
  - cbn. intros [= <-]. split; [reflexivity|]. left.
    split; [reflexivity|]. destruct sel; [discriminate|]. split; [reflexivity|].
    cbn in Hs. now destruct (labels_list labels).
Qed.

Lemma failure_leaves_state_witness :
  (text_highlighter no_interaction "hi" (Some "A") 1 (inr ["A"; "B"]) (Some ["red"])
     None true (world_with [ann_hello])).1
  = inl (AssertionError "Colors and labels must be the same length") /\
  (text_highlighter no_interaction "hi" (Some "A") 1 (inr ["A"; "B"]) (Some ["red"])
     None true (world_with [ann_hello])).2 = world_with [ann_hello].
Proof.
  assert (H : (text_highlighter no_interaction "hi" (Some "A") 1 (inr ["A"; "B"])
                 (Some ["red"]) None true (world_with [ann_hello])).1
              = inl (AssertionError "Colors and labels must be the same length"))
    by reflexivity.
  split; [exact H|].
  exact (proj1 (failure_leaves_state _ _ _ _ _ _ _ _ _ _ H)).
Defined.

(** X2: an explicit [selected_label] is never compared with the labels.
    Whatever string it is, and even with an empty label list, the call does
    not raise [IndexError]; when the colours resolve it returns a value and
    sends that string as the selected label, next to the labels as given. *)
Theorem explicit_selected_label_unchecked fe text s ann labels colors key show w :
  (text_highlighter fe text (Some s) ann labels colors key show w).1 <> inl IndexError
  /\ (forall cs,
        colors_of colors (labels_list labels) = Some cs ->
        (exists l, (text_highlighter fe text (Some s) ann labels colors key show w).1
                   = inr l)
        /\ new_renders w (text_highlighter fe text (Some s) ann labels colors key show w)
           = [(key, {| f_text := text; f_annotations := heap w !!! ann;
                       f_colors := cs; f_labels := labels_list labels;
                       f_selected_label := s; f_show_label_selector := show |})])
  /\ new_renders w (text_highlighter fe text (Some s) ann (inr []) None key show w)
     = [(key, {| f_text := text; f_annotations := heap w !!! ann;
                 f_colors := []; f_labels := []; f_selected_label := s;
                 f_show_label_selector := show |})].
Proof.
  split; [|split].
  - intros He. destruct (failure_leaves_state _ _ _ _ _ _ _ _ _ _ He)
      as [_ [(_ & Hn & _)|(Hn & _)]]; discriminate.
  - intros cs Hc. split.
    + rewrite (text_highlighter_value fe text (Some s) ann labels colors key show w
                 s cs eq_refl Hc).
      destruct (fe _ _); eauto.
    + now apply text_highlighter_renders.
  - now apply text_highlighter_renders.
Qed.

Lemma explicit_selected_label_unchecked_witness :
  colors_of None (labels_list (inr ["PERSON"; "ORG"])) = Some ["red"; "green"] /\
  new_renders init_world
    (text_highlighter no_interaction "hi" (Some "DATE") default_annotations
       (inr ["PERSON"; "ORG"]) None None true init_world)
  = [(None, {| f_text := "hi"; f_annotations := heap init_world !!! default_annotations;
               f_colors := ["red"; "green"];
               f_labels := labels_list (inr ["PERSON"; "ORG"]);
               f_selected_label := "DATE"; f_show_label_selector := true |})].
Proof.
  assert (Hc : colors_of None (labels_list (inr ["PERSON"; "ORG"]))
               = Some ["red"; "green"]) by reflexivity.
  split; [exact Hc|].
  exact (proj2 (proj1 (proj2 (explicit_selected_label_unchecked no_interaction "hi"
                                "DATE" default_annotations (inr ["PERSON"; "ORG"]) None
                                None true init_world)) ["red"; "green"] Hc)).
Defined.

(** ** The built-in colours, continued *)

Lemma all_colors_NoDup : NoDup all_colors.
Proof. apply (bool_decide_unpack _). vm_compute. exact I. Qed.

Lemma default_colors_take n : n <= 9 -> builtin <$> seq 0 n = take n all_colors.
Proof.
  intros Hn. do 10 (destruct n as [|n]; [reflexivity|]). lia.
Qed.

Lemma default_colors_NoDup n : NoDup (builtin <$> seq 0 n) <-> n <= 9.
Proof.
  split.
  - intros Hnd. destruct (decide (n <= 9)) as [|Hgt]; [assumption|exfalso].
    assert (H0 : (builtin <$> seq 0 n) !! 0 = Some "red").
    { rewrite default_colors_lookup by lia. reflexivity. }
    assert (H9 : (builtin <$> seq 0 n) !! 9 = Some "red").
    { rewrite default_colors_lookup by lia. reflexivity. }
    pose proof (NoDup_lookup _ _ _ _ Hnd H0 H9). discriminate.
  - intros Hn. rewrite default_colors_take by exact Hn.
    eapply sublist_NoDup; [apply all_colors_NoDup|apply sublist_take].
Qed.

(** X3: with [colors] omitted the colours sent are pairwise different
    exactly when there are at most nine labels; from the tenth label on the
    colours repeat with period nine. *)
Theorem default_palette_distinct fe text sel ann labels key show w sl :
  selected_of sel (labels_list labels) = Some sl ->
  exists cs,
    new_renders w (text_highlighter fe text sel ann labels None key show w)
    = [(key, {| f_text := text; f_annotations := heap w !!! ann; f_colors := cs;
                f_labels := labels_list labels; f_selected_label := sl;
                f_show_label_selector := show |})]
    /\ (NoDup cs <-> length (labels_list labels) <= 9)
    /\ (forall i, i + 9 < length (labels_list labels) -> cs !! (i + 9) = cs !! i).
Proof.
  intros Hs. exists (builtin <$> seq 0 (length (labels_list labels))).
  split; [now apply text_highlighter_renders|]. split.
  - apply default_colors_NoDup.
  - intros i Hi. rewrite !default_colors_lookup by lia.
    f_equal. rewrite <- (Nat.mul_1_l 9) at 1. apply Nat.Div0.mod_add.
Qed.

Lemma default_palette_distinct_witness :
  selected_of None (labels_list (inr ten_labels)) = Some "A" /\
  0 + 9 < length (labels_list (inr ten_labels)) /\
  exists cs,
    new_renders init_world
      (text_highlighter no_interaction "hi" None default_annotations (inr ten_labels)
         None None true init_world)
    = [(None, {| f_text := "hi";
                 f_annotations := heap init_world !!! default_annotations;
                 f_colors := cs; f_labels := labels_list (inr ten_labels);
                 f_selected_label := "A"; f_show_label_selector := true |})]
    /\ cs !! (0 + 9) = cs !! 0.
Proof.
  assert (Hs : selected_of None (labels_list (inr ten_labels)) = Some "A")
    by reflexivity.
  assert (Hi : 0 + 9 < length (labels_list (inr ten_labels)))
    by (unfold ten_labels; cbn; lia).
  split; [exact Hs|]. split; [exact Hi|].
  destruct (default_palette_distinct no_interaction "hi" None default_annotations
              (inr ten_labels) None true init_world "A" Hs) as (cs & Hr & _ & Hp).
  exists cs. split; [exact Hr|exact (Hp 0 Hi)].
Defined.

(** ** Calls in sequence *)



(** The log of renders only grows, by at most one entry per call. *)
Lemma text_highlighter_log fe text sel ann labels colors key show w :
  renders w `prefix_of`
    renders (text_highlighter fe text sel ann labels colors key show w).2
  /\ length (renders (text_highlighter fe text sel ann labels colors key show w).2)
     <= S (length (renders w)).
Proof.
  rewrite text_highlighter_run.
  destruct (selected_of _ _); [|cbn; split; [reflexivity|lia]].
  destruct (colors_of _ _); [|cbn; split; [reflexivity|lia]].
  rewrite component_func_run. cbn.
  destruct (fe _ _); cbn; (split; [now apply prefix_app_r|]);
    rewrite length_app; cbn; lia.
Qed.

(** X6: over any sequence of calls the log of renders keeps what it held
    and gains at most one render per call: earlier renders are never
    rewritten or dropped, and no call renders twice. *)
Theorem run_calls_log calls w :
  renders w `prefix_of` renders (run_calls calls w)
  /\ length (renders (run_calls calls w)) <= length (renders w) + length calls.
Proof.
  revert w. induction calls as [|[fe k] calls IH]; intros w; cbn [run_calls].
  - split; [reflexivity|cbn; lia].
  - destruct (IH (call fe k w).2) as [Hp Hl].
    destruct (text_highlighter_log fe
                (default "Hello world!" (k_text k)) (k_selected_label k)
                (default default_annotations (k_annotations k))
                (default (inr ["PERSON"; "ORG"]) (k_labels k)) (k_colors k) (k_key k)
                (default true (k_show_label_selector k)) w) as [Hp1 Hl1].
    fold (call fe k w) in Hp1, Hl1. split.
    + etransitivity; [exact Hp1|exact Hp].
    + cbn [length]. lia.
Qed.

(** ** The defaults of the signature *)

(** X7: a call that omits [labels] and [colors] never raises, whatever the
    other arguments, the state and the frontend: the default labels PERSON
    and ORG give a selected label (PERSON unless one is passed) and the
    colours red and green, and the call renders once with them. *)
Theorem defaults_never_raise fe k w :
  k_labels k = None ->
  k_colors k = None ->
  (exists l, (call fe k w).1 = inr l)
  /\ new_renders w (call fe k w)
     = [(k_key k,
         {| f_text := default "Hello world!" (k_text k);
            f_annotations := heap w !!! default default_annotations (k_annotations k);
            f_colors := ["red"; "green"];
            f_labels := ["PERSON"; "ORG"];
            f_selected_label := default "PERSON" (k_selected_label k);
            f_show_label_selector := default true (k_show_label_selector k) |})].
Proof.
  intros Hl Hc.
  assert (Hs : selected_of (k_selected_label k)
                 (labels_list (default (inr ["PERSON"; "ORG"]) (k_labels k)))
               = Some (default "PERSON" (k_selected_label k))).
  { rewrite Hl. now destruct (k_selected_label k). }
  assert (Hcs : colors_of (k_colors k)
                  (labels_list (default (inr ["PERSON"; "ORG"]) (k_labels k)))
                = Some ["red"; "green"]).
  { rewrite Hl, Hc. reflexivity. }
  split.
  - unfold call. rewrite (text_highlighter_value _ _ _ _ _ _ _ _ _ _ _ Hs Hcs).
    destruct (fe _ _); eauto.
  - rewrite call_renders, Hs, Hcs, Hl. reflexivity.
Qed.

Lemma defaults_never_raise_witness :
  k_labels no_arguments = None /\
  k_colors no_arguments = None /\
  new_renders init_world (call no_interaction no_arguments init_world)
  = [(k_key no_arguments,
      {| f_text := default "Hello world!" (k_text no_arguments);
         f_annotations :=
           heap init_world !!! default default_annotations (k_annotations no_arguments);
         f_colors := ["red"; "green"];
         f_labels := ["PERSON"; "ORG"];
         f_selected_label := default "PERSON" (k_selected_label no_arguments);
         f_show_label_selector :=
           default true (k_show_label_selector no_arguments) |})].
Proof.
  assert (Hl : k_labels no_arguments = None) by reflexivity.
  assert (Hc : k_colors no_arguments = None) by reflexivity.
  split; [exact Hl|]. split; [exact Hc|].
  exact (proj2 (defaults_never_raise no_interaction no_arguments init_world Hl Hc)).
Defined.


(** * The module around the wrapper *)

(** ** Release mode *)

Section LowerCase.
Import Stdlib.Strings.Ascii.

Lemma lower_ascii_t a : lower_ascii a = "t"%char -> a = "t"%char \/ a = "T"%char.
Proof.
  destruct a as [[] [] [] [] [] [] [] []]; vm_compute; intros H;
    try discriminate H; auto.
Qed.

Lemma lower_ascii_r a : lower_ascii a = "r"%char -> a = "r"%char \/ a = "R"%char.
Proof.
  destruct a as [[] [] [] [] [] [] [] []]; vm_compute; intros H;
    try discriminate H; auto.
Qed.

Lemma lower_ascii_u a : lower_ascii a = "u"%char -> a = "u"%char \/ a = "U"%char.
Proof.
  destruct a as [[] [] [] [] [] [] [] []]; vm_compute; intros H;
    try discriminate H; auto.
Qed.

Lemma lower_ascii_e a : lower_ascii a = "e"%char -> a = "e"%char \/ a = "E"%char.
Proof.
  destruct a as [[] [] [] [] [] [] [] []]; vm_compute; intros H;
    try discriminate H; auto.
Qed.

Lemma lower_ascii_1 a : lower_ascii a = "1"%char -> a = "1"%char.
Proof.
  destruct a as [[] [] [] [] [] [] [] []]; vm_compute; intros H;
    try discriminate H; auto.
Qed.

End LowerCase.

Lemma lower_true s : lower s = "true" -> s ∈ release_spellings.
Proof.
  destruct s as [|a [|b [|c [|d [|x s]]]]]; cbn [lower]; try discriminate.
  intros [= Ha Hb Hc Hd].
  destruct (lower_ascii_t _ Ha) as [-> | ->];
  destruct (lower_ascii_r _ Hb) as [-> | ->];
  destruct (lower_ascii_u _ Hc) as [-> | ->];
  destruct (lower_ascii_e _ Hd) as [-> | ->];
  apply (bool_decide_unpack _); vm_compute; exact I.
Qed.

Lemma lower_1 s : lower s = "1" -> s ∈ release_spellings.
Proof.
  destruct s as [|a [|x s]]; cbn [lower]; try discriminate.
  intros [= Ha]. rewrite (lower_ascii_1 _ Ha). constructor.
Qed.

Lemma release_spellings_lower :
  Forall (fun s => lower s ∈ ["true"; "1"]) release_spellings.
Proof. apply (bool_decide_unpack _). vm_compute. exact I. Qed.

(** X8: release mode is on exactly when the variable RELEASE is not set,
    or is set to "1" or to "true" in any mix of upper and lower case; every
    other value, the empty string included, selects development mode, and no
    other variable of the environment matters. *)
Theorem release_values (environ : gmap string string) :
  _RELEASE environ = true <->
  environ !! "RELEASE" = None
  \/ exists s, environ !! "RELEASE" = Some s /\ s ∈ release_spellings.
Proof.
  unfold _RELEASE, environ_get_RELEASE.
  destruct (environ !! "RELEASE") as [s|]; cbn [str].
  - rewrite bool_decide_eq_true. split.
    + intros H. right. exists s. split; [reflexivity|].
      apply elem_of_cons in H as [H|H]; [now apply lower_true|].
      apply list_elem_of_singleton in H. now apply lower_1.
    + intros [H|(s' & [= <-] & H)]; [discriminate|].
      pose proof release_spellings_lower as HF.
      rewrite Forall_forall in HF. now apply HF.
  - split; [now left|]. intros _. reflexivity.
Qed.

Lemma release_values_witness : _RELEASE {[ "RELEASE" := "TRUE" ]} = true.
Proof.
  apply (proj2 (release_values {[ "RELEASE" := "TRUE" ]})).
  right. exists "TRUE". split; [reflexivity|].
  apply (bool_decide_unpack _). vm_compute. exact I.
Defined.

(** ** The demonstration *)

(** The demonstration in closed form. *)
Lemma demo_run fe selectbox w :
  demo fe selectbox w =
  ([ st_subheader "Component with constant args";
     st_selectbox "Select a label" ["PERSON"; "ORG"];
     st_write (default [ann_hello] (fe None (demo_args selectbox))) ],
   (inr tt,
    {| heap := (heap w ++ [ [ann_hello] ])
               ++ match fe None (demo_args selectbox) with
                  | Some v => [v]
                  | None => []
                  end;
       renders := renders w ++ [(None, demo_args selectbox)] |})).
Proof.
  unfold demo, call. cbn [k_text k_selected_label k_annotations k_labels k_colors
                           k_key k_show_label_selector default from_option].
  set (w1 := {| heap := heap w ++ [ [ann_hello] ]; renders := renders w |}).
  assert (Hh : heap w1 !!! length (heap w) = [ann_hello]).
  { apply list_lookup_total_correct. cbn.
    rewrite lookup_app_r by reflexivity. now rewrite Nat.sub_diag. }
  rewrite (text_highlighter_value fe _ (selectbox "Select a label" ["PERSON"; "ORG"])
             (length (heap w)) (inr ["PERSON"; "ORG"]) None None false w1
             (default "PERSON" (selectbox "Select a label" ["PERSON"; "ORG"]))
             ["red"; "green"]);
    [|now destruct (selectbox _ _)|reflexivity].
  rewrite Hh. unfold demo_args, labels_list, id.
  destruct (fe None _) as [v|]; cbn [default from_option].
  - assert (Hv : (heap w1 ++ [v]) !!! length (heap w1) = v).
    { apply list_lookup_total_correct.
      rewrite lookup_app_r by reflexivity. now rewrite Nat.sub_diag. }
    cbn [heap renders]. rewrite Hv. reflexivity.
  - cbn [heap renders]. rewrite Hh, app_nil_r. reflexivity.
Qed.

(** X9: the demonstration never raises, whatever the user chooses in the
    select box (a label, or nothing) and whatever the frontend does.  It
    renders once, with the default labels and colours and the chosen label;
    the page ends with [st.write] of the frontend's value if there is one and
    of the initial annotation otherwise; and the list objects of the host,
    the shared default among them, keep their contents: the demonstration
    works on a list of its own. *)
Theorem demo_never_raises fe selectbox w :
  (demo fe selectbox w).2.1 = inr tt
  /\ (demo fe selectbox w).1
     = [ st_subheader "Component with constant args";
         st_selectbox "Select a label" ["PERSON"; "ORG"];
         st_write (default [ann_hello] (fe None (demo_args selectbox))) ]
  /\ new_renders w (demo fe selectbox w).2 = [(None, demo_args selectbox)]
  /\ (forall l (x : list annotation),
        heap w !! l = Some x -> heap (demo fe selectbox w).2.2 !! l = Some x).
Proof.
  rewrite demo_run. cbn [fst snd]. split; [reflexivity|]. split; [reflexivity|].
  split.
  - unfold new_renders. cbn. now rewrite drop_app_length.
  - intros l x Hl. cbn [heap].
    eapply prefix_lookup_Some; [exact Hl|].
    rewrite <- app_assoc. now apply prefix_app_r.
Qed.

Lemma demo_never_raises_witness :
  heap (world_with [ann_out_of_range]) !! 1 = Some [ann_out_of_range] /\
  heap (demo (edited unsorted_value) (fun _ options => options !! 1)
          (world_with [ann_out_of_range])).2.2 !! 1 = Some [ann_out_of_range].
Proof.
  assert (H : heap (world_with [ann_out_of_range]) !! 1 = Some [ann_out_of_range])
    by reflexivity.
  split; [exact H|].
  exact (proj2 (proj2 (proj2 (demo_never_raises (edited unsorted_value)
                                (fun _ options => options !! 1)
                                (world_with [ann_out_of_range])))) 1 _ H).
Defined.

(** * The shared default *)

(** X11: calls that omit [annotations] all work on one list object.  In a
    session without interaction such a call, whatever its other arguments
    and the state it starts in, either raises or returns the shared default
    itself, not a copy; it returns whenever its selected label and colours
    resolve; and two such calls in a row that return, return the same
    reference and leave the heap as it was. *)
Theorem omitted_annotations_share_one_list k1 k2 w :
  k_annotations k1 = None ->
  k_annotations k2 = None ->
  (forall l, (call no_interaction k1 w).1 = inr l -> l = default_annotations)
  /\ (is_Some (selected_of (k_selected_label k1)
                 (labels_list (default (inr ["PERSON"; "ORG"]) (k_labels k1)))) ->
      is_Some (colors_of (k_colors k1)
                 (labels_list (default (inr ["PERSON"; "ORG"]) (k_labels k1)))) ->
      (call no_interaction k1 w).1 = inr default_annotations)
  /\ (forall l1 l2,
        (call no_interaction k1 w).1 = inr l1 ->
        (call no_interaction k2 (call no_interaction k1 w).2).1 = inr l2 ->
        l1 = l2
        /\ heap (call no_interaction k2 (call no_interaction k1 w).2).2 = heap w).
Proof.
  intros Hk1 Hk2.
  assert (Hret : forall k w' l,
            k_annotations k = None ->
            (call no_interaction k w').1 = inr l ->
            l = default_annotations /\ heap (call no_interaction k w').2 = heap w').
  { intros k w' l Hk. unfold call. rewrite text_highlighter_run, Hk.
    destruct (selected_of _ _); [|discriminate].
    destruct (colors_of _ _); [|discriminate].
    rewrite component_func_run. cbn. intros [= <-]. split; reflexivity. }
  split; [|split].
  - intros l Hl. exact (proj1 (Hret k1 w l Hk1 Hl)).
  - intros [sl Hs] [cs Hc]. eapply call_returns_shared_default; eassumption.
  - intros l1 l2 H1 H2.
    destruct (Hret k1 w l1 Hk1 H1) as [-> Hh1].
    destruct (Hret k2 _ l2 Hk2 H2) as [-> Hh2].
    split; [reflexivity|]. now rewrite Hh2, Hh1.
Qed.

Lemma omitted_annotations_share_one_list_witness :
  k_annotations no_arguments = None /\
  (call no_interaction no_arguments init_world).1 = inr default_annotations /\
  (call no_interaction
     {| k_text := Some "hi"; k_selected_label := Some "B"; k_annotations := None;
        k_labels := Some (inr ["A"; "B"]); k_colors := Some ["pink"; "cyan"];
        k_key := Some "k"; k_show_label_selector := Some false |}
     (call no_interaction no_arguments init_world).2).1 = inr default_annotations /\
  default_annotations = default_annotations /\
  heap (call no_interaction
          {| k_text := Some "hi"; k_selected_label := Some "B";
             k_annotations := None; k_labels := Some (inr ["A"; "B"]);
             k_colors := Some ["pink"; "cyan"]; k_key := Some "k";
             k_show_label_selector := Some false |}
          (call no_interaction no_arguments init_world).2).2 = heap init_world.
Proof.
  assert (Hk1 : k_annotations no_arguments = None) by reflexivity.
  assert (H1 : (call no_interaction no_arguments init_world).1
               = inr default_annotations) by reflexivity.
  assert (H2 : (call no_interaction
                  {| k_text := Some "hi"; k_selected_label := Some "B";
                     k_annotations := None; k_labels := Some (inr ["A"; "B"]);
                     k_colors := Some ["pink"; "cyan"]; k_key := Some "k";
                     k_show_label_selector := Some false |}
                  (call no_interaction no_arguments init_world).2).1
               = inr default_annotations) by reflexivity.
  split; [exact Hk1|]. split; [exact H1|]. split; [exact H2|].
  exact (proj2 (proj2 (omitted_annotations_share_one_list no_arguments
                         {| k_text := Some "hi"; k_selected_label := Some "B";
                            k_annotations := None;
                            k_labels := Some (inr ["A"; "B"]);
                            k_colors := Some ["pink"; "cyan"]; k_key := Some "k";
                            k_show_label_selector := Some false |}
                         init_world Hk1 eq_refl))
               default_annotations default_annotations H1 H2).
Defined.
